(** * CRUD_Hexagonal: entities, in-memory repository and CRUD service

    A shallow embedding of [core/entities.py], [core/interfaces.py] and
    [core/use_cases.py].

    Python objects are mutable and are passed by reference, so an entity is
    a reference into a heap of [User] records; the repository's [storage]
    dictionary maps identity strings to references and keeps the insertion
    order of its keys, as a Python [dict] does.  Methods are computations in
    a small state-and-exception monad [Py]. *)

From Stdlib Require Import List String Ascii Bool ZArith Lia.
From Stdlib.Strings Require Import Byte.
From Stdlib Require Permutation.
Import ListNotations.
Local Open Scope string_scope.
Local Open Scope list_scope.

(* ================================================================== *)
(** ** Python runtime: outcomes, exceptions, the [Py] monad           *)
(* ================================================================== *)

Inductive Exception : Type :=
| ValueError (msg : string)
| KeyError (key : string).

Inductive Outcome (A : Type) : Type :=
| Return (a : A)
| Raise (e : Exception).
Arguments Return {A} a.
Arguments Raise {A} e.

(** A method call starts in a state, ends in a state, and either returns a
    value or raises. *)
Definition Py (S A : Type) : Type := S -> Outcome A * S.

Definition ret {S A} (a : A) : Py S A := fun s => (Return a, s).

Definition raise {S A} (e : Exception) : Py S A := fun s => (Raise e, s).

Definition bind {S A B} (m : Py S A) (f : A -> Py S B) : Py S B :=
  fun s =>
    match m s with
    | (Return a, s') => f a s'
    | (Raise e, s') => (Raise e, s')
    end.

Notation "x <- m ;; k" := (bind m (fun x => k))
  (at level 61, m at next level, right associativity).
Notation "m ;;; k" := (bind m (fun _ => k))
  (at level 61, right associativity).

(** Object references. *)
Definition ref : Type := nat.

(* ================================================================== *)
(** ** Python [dict] with string keys: insertion-ordered               *)
(* ================================================================== *)

Definition dict : Type := list (string * ref).

(** [d.get(k)] *)
Fixpoint dict_get (d : dict) (k : string) : option ref :=
  match d with
  | [] => None
  | (k', v) :: d' => if String.eqb k k' then Some v else dict_get d' k
  end.

(** [k in d] *)
Fixpoint dict_contains (d : dict) (k : string) : bool :=
  match d with
  | [] => false
  | (k', _) :: d' => if String.eqb k k' then true else dict_contains d' k
  end.

(** [d[k] = v]: an existing key keeps its position, a new key goes last. *)
Fixpoint dict_setitem (d : dict) (k : string) (v : ref) : dict :=
  match d with
  | [] => [(k, v)]
  | (k', v') :: d' =>
      if String.eqb k k' then (k', v) :: d'
      else (k', v') :: dict_setitem d' k v
  end.

(** [del d[k]]: [None] stands for the [KeyError] of a missing key. *)
Fixpoint dict_delitem (d : dict) (k : string) : option dict :=
  match d with
  | [] => None
  | (k', v') :: d' =>
      if String.eqb k k' then Some d'
      else option_map (cons (k', v')) (dict_delitem d' k)
  end.

(** [list(d.values())] *)
Definition dict_values (d : dict) : list ref := map snd d.

(** [list(d.keys())] *)
Definition dict_keys (d : dict) : list string := map fst d.

(** The keys of a Python dictionary are pairwise distinct. *)
Definition dict_wf (d : dict) : Prop := NoDup (dict_keys d).

(* ================================================================== *)
(** ** [uuid.uuid4] and [str] of a UUID                                *)
(* ================================================================== *)

(** [entities.py] takes its default [id] from [str(uuid.uuid4())].  The
    [uuid] module is Python's standard library, not a file of the
    repository; it is transcribed here from CPython's [Lib/uuid.py], with
    the bytes of [os.urandom(16)] as an argument. *)
Module uuid.

(** [int.from_bytes(bs, 'big')] *)
Definition from_bytes (bs : list byte) : Z :=
  fold_left (fun acc b => (acc * 256 + Z.of_N (Byte.to_N b))%Z) bs 0%Z.

(** [UUID(bytes=rnd, version=4).int], where [rnd] is what
    [os.urandom(16)] returned: the variant bits are forced to RFC 4122
    and the version nibble to 4. *)
Definition uuid4_int (rnd : list byte) : Z :=
  let i := from_bytes rnd in
  let i := Z.land i (Z.lnot (Z.shiftl 0xc000 48)) in
  let i := Z.lor i (Z.shiftl 0x8000 48) in
  let i := Z.land i (Z.lnot (Z.shiftl 0xf000 64)) in
  Z.lor i (Z.shiftl 4 76).

Definition hex_alphabet : list ascii :=
  list_ascii_of_string "0123456789abcdef".

Definition hex_char (n : Z) : ascii :=
  nth (Z.to_nat n) hex_alphabet "0"%char.

(** The [width] low hexadecimal digits of [n], most significant first:
    ['%032x' % n] is [hex_digits 32 n] for [0 <= n < 2^128]. *)
Fixpoint hex_digits (width : nat) (n : Z) : list ascii :=
  match width with
  | O => []
  | S w => hex_digits w (n / 16) ++ [hex_char (n mod 16)]
  end.

(** [hex[a:b]] *)
Definition slice (a b : nat) (l : list ascii) : list ascii :=
  firstn (b - a) (skipn a l).

(** ['%s-%s-%s-%s-%s' % (hex[:8], hex[8:12], hex[12:16], hex[16:20],
    hex[20:])] *)
Definition layout (hex : list ascii) : list ascii :=
  slice 0 8 hex ++ ["-"%char] ++ slice 8 12 hex ++ ["-"%char] ++
  slice 12 16 hex ++ ["-"%char] ++ slice 16 20 hex ++ ["-"%char] ++
  skipn 20 hex.

(** [UUID.__str__]: [hex = '%032x' % self.int], then the layout. *)
Definition str_of_int (i : Z) : string :=
  string_of_list_ascii (layout (hex_digits 32 i)).

(** [str(uuid.uuid4())], as a function of the random bytes drawn. *)
Definition str_uuid4 (rnd : list byte) : string :=
  str_of_int (uuid4_int rnd).

(** The 122 bits of a draw that [uuid4] keeps: all 128 but the variant
    bits 62 and 63 and the version bits 76 to 79. *)
Definition free_mask : Z :=
  Z.land (Z.ones 128)
    (Z.lnot (Z.lor (Z.shiftl 0xc000 48) (Z.shiftl 0xf000 64))).

Definition free_bits (rnd : list byte) : Z :=
  Z.land (from_bytes rnd) free_mask.

(** The six bits [uuid4] forces. *)
Definition fixed_bits : Z := Z.lor (Z.shiftl 0x8000 48) (Z.shiftl 4 76).

(** Reading a hexadecimal digit back. *)
Definition hex_value (c : ascii) : Z :=
  (fix find (l : list ascii) (n : Z) : Z :=
     match l with
     | [] => 0%Z
     | c' :: l' => if Ascii.eqb c c' then n else find l' (n + 1)%Z
     end) hex_alphabet 0%Z.

(** Taking the four hyphens out of a laid-out UUID. *)
Definition unlayout (s : list ascii) : list ascii :=
  firstn 8 s ++ firstn 4 (skipn 9 s) ++ firstn 4 (skipn 14 s) ++
  firstn 4 (skipn 19 s) ++ skipn 24 s.

End uuid.

(* ================================================================== *)
(** ** core/entities.py                                                *)
(* ================================================================== *)

Module entities.

(** [User(Entity)]: the five inherited fields, then [name], [email]. *)
Record User : Type := {
  id : string;
  created_at : option string;
  updated_at : option string;
  is_active : bool;
  deleted : bool;
  name : string;
  email : string
}.

(** The dataclass constructor.  An argument left out is [None] here and
    takes its default; the [id] default is a factory, called once per
    construction, and [rnd] is the 16 bytes [os.urandom] hands to it. *)
Definition User_init (rnd : list byte)
    (id_arg created_at_arg updated_at_arg : option string)
    (is_active_arg deleted_arg : option bool)
    (name_arg email_arg : option string) : User :=
  {| id := match id_arg with
           | Some s => s
           | None => uuid.str_uuid4 rnd
           end;
     created_at := created_at_arg;
     updated_at := updated_at_arg;
     is_active := match is_active_arg with Some b => b | None => true end;
     deleted := match deleted_arg with Some b => b | None => false end;
     name := match name_arg with Some s => s | None => "" end;
     email := match email_arg with Some s => s | None => "" end |}.

(** [User(name=n, email=e)], every other argument left out. *)
Definition User_named (rnd : list byte) (n e : string) : User :=
  User_init rnd None None None None None (Some n) (Some e).

(** [u] was built without an [id] argument, the factory drawing
    [rnd]. *)
Definition default_constructed (rnd : list byte) (u : User) : Prop :=
  exists created_at_arg updated_at_arg is_active_arg deleted_arg
         name_arg email_arg,
    u = User_init rnd None created_at_arg updated_at_arg
          is_active_arg deleted_arg name_arg email_arg.

(** Field-by-field equality of two entities. *)
Definition same_fields (u v : User) : Prop :=
  id u = id v /\ created_at u = created_at v /\
  updated_at u = updated_at v /\ is_active u = is_active v /\
  deleted u = deleted v /\ name u = name v /\ email u = email v.

(** The object heap: what each reference points to. *)
Definition Heap : Type := ref -> User.

(** [obj.name = v], an assignment made by a caller. *)
Definition set_name (h : Heap) (r : ref) (v : string) : Heap :=
  fun r' =>
    if Nat.eqb r' r then
      {| id := id (h r); created_at := created_at (h r);
         updated_at := updated_at (h r); is_active := is_active (h r);
         deleted := deleted (h r); name := v; email := email (h r) |}
    else h r'.

End entities.

(* ================================================================== *)
(** ** core/interfaces.py                                              *)
(* ================================================================== *)

Module interfaces.
Import entities.

(** The abstract base class: five abstract methods over the state [S] of
    whatever implements it. *)
Class Repository (S : Type) : Type := {
  get_by_id : string -> Py S (option ref);
  get_all : Py S (list ref);
  create : ref -> Py S ref;
  update : string -> ref -> Py S ref;
  delete : string -> Py S bool
}.

Module InMemoryRepository.

(** Program state seen by the in-memory repository: the heap of entity
    objects and the repository's own [storage] attribute. *)
Record State : Type := {
  heap : Heap;
  storage : dict
}.

(** [__init__]: [self.storage = {}] *)
Definition init (h : Heap) : State := {| heap := h; storage := [] |}.

(** [entity.id] *)
Definition attr_id (entity : ref) : Py State string :=
  fun s => (Return (id (heap s entity)), s).

(** [self.storage.get(k)] *)
Definition storage_get (k : string) : Py State (option ref) :=
  fun s => (Return (dict_get (storage s) k), s).

(** [k in self.storage] *)
Definition storage_contains (k : string) : Py State bool :=
  fun s => (Return (dict_contains (storage s) k), s).

(** [list(self.storage.values())] *)
Definition storage_values : Py State (list ref) :=
  fun s => (Return (dict_values (storage s)), s).

(** [self.storage[k] = v] *)
Definition storage_setitem (k : string) (v : ref) : Py State unit :=
  fun s =>
    (Return tt,
     {| heap := heap s; storage := dict_setitem (storage s) k v |}).

(** [del self.storage[k]] *)
Definition storage_delitem (k : string) : Py State unit :=
  fun s =>
    match dict_delitem (storage s) k with
    | Some d => (Return tt, {| heap := heap s; storage := d |})
    | None => (Raise (KeyError k), s)
    end.

Definition get_by_id (entity_id : string) : Py State (option ref) :=
  storage_get entity_id.

Definition get_all : Py State (list ref) :=
  storage_values.

Definition create (entity : ref) : Py State ref :=
  k <- attr_id entity ;;
  storage_setitem k entity ;;;
  ret entity.

Definition update (entity_id : string) (entity : ref) : Py State ref :=
  present <- storage_contains entity_id ;;
  if (present : bool) then
    storage_setitem entity_id entity ;;;
    ret entity
  else
    raise (ValueError "Entity not found").

Definition delete (entity_id : string) : Py State bool :=
  present <- storage_contains entity_id ;;
  if (present : bool) then
    storage_delitem entity_id ;;;
    ret true
  else
    ret false.

#[export] Instance repository : Repository State := {|
  interfaces.get_by_id := get_by_id;
  interfaces.get_all := get_all;
  interfaces.create := create;
  interfaces.update := update;
  interfaces.delete := delete
|}.

End InMemoryRepository.

End interfaces.

(* ================================================================== *)
(** ** core/use_cases.py                                               *)
(* ================================================================== *)

Module use_cases.
Import interfaces.

(** [CRUDService]: holds the repository it was constructed with. *)
Record CRUDService (S : Type) : Type := {
  repository : Repository S
}.
Arguments repository {S} _.

(** [__init__] *)
Definition init {S} (repo : Repository S) : CRUDService S :=
  {| repository := repo |}.

Definition get {S} (self : CRUDService S) (entity_id : string)
  : Py S (option ref) :=
  @get_by_id S (repository self) entity_id.

Definition list_all {S} (self : CRUDService S) : Py S (list ref) :=
  @get_all S (repository self).

Definition create {S} (self : CRUDService S) (entity : ref) : Py S ref :=
  @interfaces.create S (repository self) entity.

Definition update {S} (self : CRUDService S) (entity_id : string)
    (entity : ref) : Py S ref :=
  @interfaces.update S (repository self) entity_id entity.

Definition delete {S} (self : CRUDService S) (entity_id : string)
  : Py S bool :=
  @interfaces.delete S (repository self) entity_id.

End use_cases.

(* ================================================================== *)
(** ** The call interface of the service over the in-memory store       *)
(* ================================================================== *)

Import entities interfaces.
Import InMemoryRepository.

(** The service as the tests build it: [CRUDService(InMemoryRepository())]. *)
Definition crud_service : use_cases.CRUDService State :=
  use_cases.init InMemoryRepository.repository.

(** One call of a caller on the service. *)
Inductive Call : Type :=
| CallGet (entity_id : string)
| CallListAll
| CallCreate (entity : ref)
| CallUpdate (entity_id : string) (entity : ref)
| CallDelete (entity_id : string).

(** What a call hands back, whatever its type. *)
Inductive Value : Type :=
| VEntity (r : option ref)
| VList (l : list ref)
| VBool (b : bool).

Definition lift {A} (f : A -> Value) (m : Py State A) : Py State Value :=
  a <- m ;; ret (f a).

Definition perform (c : Call) : Py State Value :=
  match c with
  | CallGet k => lift VEntity (use_cases.get crud_service k)
  | CallListAll => lift VList (use_cases.list_all crud_service)
  | CallCreate e =>
      lift (fun r => VEntity (Some r)) (use_cases.create crud_service e)
  | CallUpdate k e =>
      lift (fun r => VEntity (Some r)) (use_cases.update crud_service k e)
  | CallDelete k => lift VBool (use_cases.delete crud_service k)
  end.

(** A caller's script: the calls are made in order, an exception of one
    call is caught and the script goes on. *)
Fixpoint perform_all (cs : list Call) (s : State) : State :=
  match cs with
  | [] => s
  | c :: cs' => perform_all cs' (snd (perform c s))
  end.

(** The references a script hands to [create] or [update]. *)
Fixpoint submitted (cs : list Call) : list ref :=
  match cs with
  | [] => []
  | CallCreate e :: cs' => e :: submitted cs'
  | CallUpdate _ e :: cs' => e :: submitted cs'
  | _ :: cs' => submitted cs'
  end.

(** [create(e1); create(e2); delete(e1.id); list_all()] on the service. *)
Definition create_create_delete_list (e1 e2 : ref) : Py State (list ref) :=
  use_cases.create crud_service e1 ;;;
  use_cases.create crud_service e2 ;;;
  k <- attr_id e1 ;;
  use_cases.delete crud_service k ;;;
  use_cases.list_all crud_service.

(** The state after a caller has assigned [entity.name = v]. *)
Definition assign_name (entity : ref) (v : string) (s : State) : State :=
  {| heap := set_name (heap s) entity v; storage := storage s |}.

(** Two heaps that agree on every object's [id], whatever the other six
    fields hold. *)
Definition same_ids (h1 h2 : Heap) : Prop :=
  forall r, id (h1 r) = id (h2 r).

(* ================================================================== *)
(** ** Store invariants and script shapes                              *)
(* ================================================================== *)

(** Every key of the store is the [id] of the entity stored under it. *)
Definition keys_match_ids (s : State) : Prop :=
  forall k r, dict_get (storage s) k = Some r -> id (heap s r) = k.

(** Every [update] of the script passes an entity whose [id] is the key
    it is stored under. *)
Fixpoint updates_keep_ids (h : Heap) (cs : list Call) : Prop :=
  match cs with
  | [] => True
  | CallUpdate k e :: cs' => id (h e) = k /\ updates_keep_ids h cs'
  | _ :: cs' => updates_keep_ids h cs'
  end.

(** The calls that can change the store. *)
Definition is_write (c : Call) : bool :=
  match c with
  | CallCreate _ | CallUpdate _ _ | CallDelete _ => true
  | CallGet _ | CallListAll => false
  end.

(** [obj.id = v], an assignment made by a caller. *)
Definition set_id (h : Heap) (r : ref) (v : string) : Heap :=
  fun r' =>
    if Nat.eqb r' r then
      {| id := v; created_at := created_at (h r);
         updated_at := updated_at (h r); is_active := is_active (h r);
         deleted := deleted (h r); name := name (h r);
         email := email (h r) |}
    else h r'.

(** The state after a caller has assigned [entity.id = v]. *)
Definition assign_id (entity : ref) (v : string) (s : State) : State :=
  {| heap := set_id (heap s) entity v; storage := storage s |}.

(* ================================================================== *)
(** ** Sample entities                                                 *)
(* ================================================================== *)

(** Three users built with explicit ids; the third reuses the first id. *)
Definition john : User :=
  User_init [] (Some "u-1") None None None None
    (Some "John Doe") (Some "john.doe@example.com").

Definition jane : User :=
  User_init [] (Some "u-2") None None None None
    (Some "Jane Doe") (Some "jane.doe@example.com").

Definition john_again : User :=
  User_init [] (Some "u-1") (Some "2024-01-01") None (Some false) (Some true)
    (Some "John Smith") (Some "john.smith@example.com").

(** A heap where reference 0 is [john], 1 is [jane], the rest
    [john_again]. *)
Definition sample_heap : Heap :=
  fun r => match r with 0 => john | 1 => jane | _ => john_again end.

(** The store after [create] of references 0 and 1 on a fresh repository. *)
Definition sample_state : State :=
  {| heap := sample_heap; storage := [("u-1", 0); ("u-2", 1)] |}.

(** Three draws of [os.urandom(16)]: all zero; zero but for the high
    nibble of byte 6, which is where the version goes; all ones. *)
Definition draw_zero : list byte := repeat x00 16.

Definition draw_version : list byte := repeat x00 6 ++ [xf0] ++ repeat x00 9.

Definition draw_ones : list byte := repeat xff 16.

(** A heap of users built as the tests build them, [User(name=..,
    email=..)], from the three draws. *)
Definition generated_heap : Heap :=
  fun r =>
    match r with
    | 0 => User_named draw_zero "John Doe" "john.doe@example.com"
    | 1 => User_named draw_version "Jane Doe" "jane.doe@example.com"
    | _ => User_named draw_ones "John Smith" "john.smith@example.com"
    end.

(** [sample_heap] with the same ids and every other field changed. *)
Definition sample_heap_touched : Heap :=
  fun r =>
    {| id := id (sample_heap r);
       created_at := Some "2025-06-30";
       updated_at := Some "2025-07-01";
       is_active := negb (is_active (sample_heap r));
       deleted := negb (deleted (sample_heap r));
       name := "";
       email := "nobody@example.com" |}.

(** A script that makes every kind of call. *)
Definition sample_script : list Call :=
  [CallCreate 0; CallCreate 1; CallUpdate "u-2" 2; CallUpdate "u-7" 0;
   CallGet "u-1"; CallDelete "u-1"; CallDelete "u-1"; CallListAll].

(* ================================================================== *)
(** ** Facts about the dictionary operations                           *)
(* ================================================================== *)

Section DictFacts.

Implicit Types (d : dict) (k : string) (v : ref).

Lemma dict_contains_get d k :
  dict_contains d k = match dict_get d k with Some _ => true | None => false end.
Proof.
  induction d as [|[k0 v0] d IH]; simpl; [reflexivity|].
  destruct (String.eqb k k0); auto.
Qed.

Lemma dict_contains_keys d k :
  dict_contains d k = true <-> In k (dict_keys d).
Proof.
  induction d as [|[k0 v0] d IH]; simpl.
  - split; [discriminate | tauto].
  - destruct (String.eqb_spec k k0) as [->|Hne].
    + tauto.
    + rewrite IH. split; [tauto | intros [H|H]; [congruence | exact H]].
Qed.

Lemma dict_get_In d k v : dict_get d k = Some v -> In (k, v) d.
Proof.
  induction d as [|[k0 v0] d IH]; simpl; [discriminate|].
  destruct (String.eqb_spec k k0) as [->|Hne].
  - intros [= ->]. now left.
  - intros H. right. auto.
Qed.

Lemma dict_In_get d k v : dict_wf d -> In (k, v) d -> dict_get d k = Some v.
Proof.
  unfold dict_wf.
  induction d as [|[k0 v0] d IH]; simpl; [tauto|].
  intros Hnd [Heq|Hin]; inversion Hnd as [|? ? Hnotin Hnd']; subst.
  - inversion Heq; subst. now rewrite String.eqb_refl.
  - destruct (String.eqb_spec k k0) as [->|Hne]; [|auto].
    exfalso. apply Hnotin. change k0 with (fst (k0, v)).
    now apply in_map.
Qed.

Lemma dict_get_setitem_same d k v : dict_get (dict_setitem d k v) k = Some v.
Proof.
  induction d as [|[k0 v0] d IH]; simpl.
  - now rewrite String.eqb_refl.
  - destruct (String.eqb k k0) eqn:E; simpl; rewrite E; auto.
Qed.

Lemma dict_get_setitem_other d k v k' :
  k' <> k -> dict_get (dict_setitem d k v) k' = dict_get d k'.
Proof.
  intros Hne.
  induction d as [|[k0 v0] d IH]; simpl.
  - destruct (String.eqb_spec k' k); [contradiction | reflexivity].
  - destruct (String.eqb_spec k k0) as [->|Hk]; simpl.
    + destruct (String.eqb_spec k' k0); [contradiction | reflexivity].
    + destruct (String.eqb k' k0); auto.
Qed.

Lemma dict_setitem_present d k v :
  dict_contains d k = true ->
  exists l1 v0 l2,
    d = l1 ++ (k, v0) :: l2 /\ dict_setitem d k v = l1 ++ (k, v) :: l2 /\
    dict_contains l1 k = false.
Proof.
  induction d as [|[k0 v0] d IH]; simpl; [discriminate|].
  destruct (String.eqb_spec k k0) as [->|Hk].
  - intros _. now exists [], v0, d.
  - intros H. destruct (IH H) as (l1 & w & l2 & -> & -> & Hl1).
    exists ((k0, v0) :: l1), w, l2. simpl.
    destruct (String.eqb_spec k k0); [contradiction | auto].
Qed.

Lemma dict_keys_setitem_present d k v :
  dict_contains d k = true -> dict_keys (dict_setitem d k v) = dict_keys d.
Proof.
  intros H. destruct (dict_setitem_present d k v H) as (l1 & w & l2 & -> & -> & _).
  unfold dict_keys. now rewrite !map_app.
Qed.

Lemma dict_setitem_absent d k v :
  dict_contains d k = false -> dict_setitem d k v = d ++ [(k, v)].
Proof.
  induction d as [|[k0 v0] d IH]; simpl; [reflexivity|].
  destruct (String.eqb k k0); [discriminate|].
  intros H. now rewrite IH.
Qed.

Lemma dict_delitem_split d k d' :
  dict_delitem d k = Some d' ->
  exists l1 v0 l2,
    d = l1 ++ (k, v0) :: l2 /\ d' = l1 ++ l2 /\ dict_contains l1 k = false.
Proof.
  revert d'.
  induction d as [|[k0 v0] d IH]; simpl; intros d'; [discriminate|].
  destruct (String.eqb_spec k k0) as [->|Hk].
  - intros [= <-]. now exists [], v0, d.
  - destruct (dict_delitem d k) as [d0|]; simpl; [|discriminate].
    intros [= <-]. destruct (IH d0 eq_refl) as (l1 & w & l2 & -> & -> & Hl1).
    exists ((k0, v0) :: l1), w, l2. simpl.
    destruct (String.eqb_spec k k0); [contradiction | auto].
Qed.

Lemma dict_delitem_present d k :
  dict_contains d k = true -> exists d', dict_delitem d k = Some d'.
Proof.
  induction d as [|[k0 v0] d IH]; simpl; [discriminate|].
  destruct (String.eqb k k0); [eauto|].
  intros H. destruct (IH H) as [d' ->]. simpl. eauto.
Qed.

Lemma dict_delitem_absent d k :
  dict_contains d k = false -> dict_delitem d k = None.
Proof.
  induction d as [|[k0 v0] d IH]; simpl; [reflexivity|].
  destruct (String.eqb k k0); [discriminate|].
  intros H. now rewrite IH.
Qed.

Lemma dict_contains_app d1 d2 k :
  dict_contains (d1 ++ d2) k = dict_contains d1 k || dict_contains d2 k.
Proof.
  induction d1 as [|[k0 v0] d1 IH]; simpl; [reflexivity|].
  destruct (String.eqb k k0); auto.
Qed.

Lemma dict_get_app d1 d2 k :
  dict_get (d1 ++ d2) k =
  match dict_get d1 k with Some v => Some v | None => dict_get d2 k end.
Proof.
  induction d1 as [|[k0 v0] d1 IH]; simpl; [reflexivity|].
  destruct (String.eqb k k0); auto.
Qed.

Lemma dict_wf_app_cons l1 k v l2 :
  dict_wf (l1 ++ (k, v) :: l2) ->
  dict_wf (l1 ++ l2) /\ dict_contains (l1 ++ l2) k = false.
Proof.
  unfold dict_wf, dict_keys. rewrite !map_app. simpl. intros H.
  split.
  - eapply NoDup_remove_1; eauto.
  - apply NoDup_remove_2 in H.
    destruct (dict_contains (l1 ++ l2) k) eqn:E; [|reflexivity].
    exfalso. apply H. apply dict_contains_keys in E.
    unfold dict_keys in E. now rewrite map_app in E.
Qed.

Lemma dict_delitem_gone d k d' :
  dict_wf d -> dict_delitem d k = Some d' -> dict_contains d' k = false.
Proof.
  intros Hwf H. destruct (dict_delitem_split d k d' H) as (l1 & w & l2 & -> & -> & _).
  now apply dict_wf_app_cons in Hwf.
Qed.

Lemma dict_get_delitem_other d k d' k' :
  dict_delitem d k = Some d' -> k' <> k -> dict_get d' k' = dict_get d k'.
Proof.
  intros H Hne. destruct (dict_delitem_split d k d' H) as (l1 & w & l2 & -> & -> & _).
  rewrite !dict_get_app. simpl.
  destruct (String.eqb_spec k' k); [contradiction | reflexivity].
Qed.

Lemma dict_wf_setitem d k v : dict_wf d -> dict_wf (dict_setitem d k v).
Proof.
  intros Hwf. destruct (dict_contains d k) eqn:E.
  - unfold dict_wf. now rewrite dict_keys_setitem_present.
  - rewrite dict_setitem_absent by exact E.
    unfold dict_wf, dict_keys in *. rewrite map_app. simpl.
    apply (NoDup_Add (a := k) (l := map fst d)).
    + rewrite <- (app_nil_r (map fst d)) at 1. apply Add_app.
    + split; [exact Hwf|].
      intros Hin. apply dict_contains_keys in Hin. congruence.
Qed.

Lemma dict_wf_delitem d k d' :
  dict_wf d -> dict_delitem d k = Some d' -> dict_wf d'.
Proof.
  intros Hwf H. destruct (dict_delitem_split d k d' H) as (l1 & w & l2 & -> & -> & _).
  now apply dict_wf_app_cons in Hwf.
Qed.

Lemma dict_values_setitem_In d k v r :
  In r (dict_values (dict_setitem d k v)) -> r = v \/ In r (dict_values d).
Proof.
  unfold dict_values.
  induction d as [|[k0 v0] d IH]; simpl.
  - intros [H|[]]. now left.
  - destruct (String.eqb k k0); simpl.
    + intros [H|H]; [now left | right; now right].
    + intros [H|H]; [right; now left|].
      destruct (IH H); [now left | right; now right].
Qed.

Lemma dict_values_delitem_In d k d' r :
  dict_delitem d k = Some d' -> In r (dict_values d') -> In r (dict_values d).
Proof.
  intros H. destruct (dict_delitem_split d k d' H) as (l1 & w & l2 & -> & -> & _).
  unfold dict_values. rewrite !map_app, !in_app_iff. simpl. tauto.
Qed.

Lemma dict_values_stored d r :
  dict_wf d ->
  (In r (dict_values d) <-> exists k, dict_get d k = Some r).
Proof.
  intros Hwf. unfold dict_values. rewrite in_map_iff. split.
  - intros ([k v] & Hv & Hin). simpl in Hv. subst v.
    exists k. now apply dict_In_get.
  - intros [k Hk]. exists (k, r). split; [reflexivity|].
    now apply dict_get_In.
Qed.

End DictFacts.

(* ================================================================== *)
(** ** The repository operations                                       *)
(* ================================================================== *)

(** Unfold a service call down to the repository method it delegates to,
    then the method down to its effect on the state. *)
Ltac run_service :=
  unfold perform, lift, use_cases.get, use_cases.list_all, use_cases.create,
    use_cases.update, use_cases.delete, crud_service, use_cases.init;
  cbn [use_cases.repository repository interfaces.get_by_id
       interfaces.get_all interfaces.create interfaces.update
       interfaces.delete].

Ltac run_py :=
  unfold get_by_id, get_all, create, update, delete,
    bind, ret, raise, attr_id, storage_get, storage_contains,
    storage_values, storage_setitem, storage_delitem; simpl.

Lemma same_fields_eq (u v : User) : same_fields u v <-> u = v.
Proof.
  split.
  - destruct u, v. unfold same_fields. simpl.
    intros (-> & -> & -> & -> & -> & -> & ->). reflexivity.
  - intros ->. repeat split.
Qed.

Lemma create_spec (s : State) (e : ref) :
  create e s =
  (Return e,
   {| heap := heap s;
      storage := dict_setitem (storage s) (id (heap s e)) e |}).
Proof. reflexivity. Qed.

Lemma update_present (s : State) (k : string) (e : ref) :
  dict_contains (storage s) k = true ->
  update k e s =
  (Return e, {| heap := heap s; storage := dict_setitem (storage s) k e |}).
Proof. intros H. run_py. now rewrite H. Qed.

Lemma update_absent (s : State) (k : string) (e : ref) :
  dict_contains (storage s) k = false ->
  update k e s = (Raise (ValueError "Entity not found"), s).
Proof. intros H. run_py. now rewrite H. Qed.

Lemma delete_present (s : State) (k : string) :
  dict_contains (storage s) k = true ->
  exists d,
    dict_delitem (storage s) k = Some d /\
    delete k s = (Return true, {| heap := heap s; storage := d |}).
Proof.
  intros H. destruct (dict_delitem_present _ _ H) as [d Hd].
  exists d. split; [exact Hd|]. run_py. now rewrite H, Hd.
Qed.

Lemma delete_absent (s : State) (k : string) :
  dict_contains (storage s) k = false -> delete k s = (Return false, s).
Proof. intros H. run_py. now rewrite H. Qed.

(** Every operation keeps the keys of [storage] pairwise distinct. *)
Lemma perform_wf (c : Call) (s : State) :
  dict_wf (storage s) -> dict_wf (storage (snd (perform c s))).
Proof.
  intros Hwf. destruct c as [k| |e|k e|k]; try exact Hwf.
  - simpl. now apply dict_wf_setitem.
  - run_service. run_py.
    destruct (dict_contains (storage s) k); simpl; [|exact Hwf].
    now apply dict_wf_setitem.
  - run_service. run_py.
    destruct (dict_contains (storage s) k); simpl; [|exact Hwf].
    destruct (dict_delitem (storage s) k) as [d|] eqn:Hd; simpl; [|exact Hwf].
    eapply dict_wf_delitem; eauto.
Qed.

Lemma perform_all_wf (cs : list Call) (s : State) :
  dict_wf (storage s) -> dict_wf (storage (perform_all cs s)).
Proof.
  revert s. induction cs as [|c cs IH]; simpl; intros s Hwf; [exact Hwf|].
  apply IH. now apply perform_wf.
Qed.

(** Every state a caller can reach from a fresh repository is well
    formed. *)
Lemma reachable_wf (h : Heap) (cs : list Call) :
  dict_wf (storage (perform_all cs (init h))).
Proof. apply perform_all_wf. constructor. Qed.

(** C1: after [create e], [get_by_id] with the id of the returned entity
    returns that very entity, equal to [e] in all seven fields. *)
Theorem C1_create_then_get_round_trip (s : State) (e : ref) :
  exists e' s1 got s2,
    create e s = (Return e', s1) /\
    get_by_id (id (heap s1 e')) s1 = (Return (Some got), s2) /\
    got = e /\
    same_fields (heap s2 got) (heap s e).
Proof.
  exists e. eexists. exists e. eexists.
  split; [apply create_spec|]. simpl.
  split.
  - unfold get_by_id, storage_get. simpl.
    now rewrite dict_get_setitem_same.
  - split; [reflexivity | now apply same_fields_eq].
Qed.

(** C2: [update] with a key that is not in the store raises
    [ValueError("Entity not found")] and leaves the whole state as it
    was. *)
Theorem C2_update_missing_fails_atomically (s : State) (k : string) (e : ref) :
  dict_contains (storage s) k = false ->
  update k e s = (Raise (ValueError "Entity not found"), s).
Proof. apply update_absent. Qed.

Lemma C2_update_missing_witness :
  dict_contains (storage sample_state) "nonexistent-id" = false /\
  update "nonexistent-id" 0 sample_state =
  (Raise (ValueError "Entity not found"), sample_state).
Proof.
  split; [reflexivity|].
  apply (C2_update_missing_fails_atomically sample_state "nonexistent-id" 0).
  reflexivity.
Defined.

(** C3: [update k e2] with [k] in the store returns [e2] and stores the
    reference [e2] under [k], whatever [e2.id] is: [get_by_id k] then
    returns [e2] with the fields it was given, no object is changed, and
    the other keys, their values and the key order stay as they were. *)
Theorem C3_update_replaces_wholesale (s : State) (k : string) (e2 : ref) :
  dict_contains (storage s) k = true ->
  exists s',
    update k e2 s = (Return e2, s') /\
    get_by_id k s' = (Return (Some e2), s') /\
    heap s' e2 = heap s e2 /\
    heap s' = heap s /\
    dict_keys (storage s') = dict_keys (storage s) /\
    (forall k', k' <> k ->
       dict_get (storage s') k' = dict_get (storage s) k').
Proof.
  intros H. eexists. split; [now apply update_present|]. simpl.
  repeat split.
  - unfold get_by_id, storage_get. simpl. now rewrite dict_get_setitem_same.
  - now apply dict_keys_setitem_present.
  - intros k' Hne. now apply dict_get_setitem_other.
Qed.

(** Reference 1 is [jane], whose own id is ["u-2"]; it is stored under
    ["u-1"]. *)
Lemma C3_update_replaces_witness :
  dict_contains (storage sample_state) "u-1" = true /\
  id (heap sample_state 1) <> "u-1" /\
  exists s',
    update "u-1" 1 sample_state = (Return 1, s') /\
    get_by_id "u-1" s' = (Return (Some 1), s') /\
    heap s' 1 = heap sample_state 1 /\
    heap s' = heap sample_state /\
    dict_keys (storage s') = dict_keys (storage sample_state) /\
    (forall k', k' <> "u-1" ->
       dict_get (storage s') k' = dict_get (storage sample_state) k').
Proof.
  split; [reflexivity|]. split; [discriminate|].
  apply (C3_update_replaces_wholesale sample_state "u-1" 1).
  reflexivity.
Defined.

(** C4: [delete] never raises.  On a key in the store it returns [True],
    after which [get_by_id] returns [None] and a second [delete] returns
    [False]; on a key not in the store it returns [False] and leaves the
    state as it was. *)
Theorem C4_delete_observable (s : State) (k : string) :
  dict_wf (storage s) ->
  (exists b s', delete k s = (Return b, s')) /\
  (dict_contains (storage s) k = true ->
     exists s',
       delete k s = (Return true, s') /\
       get_by_id k s' = (Return None, s') /\
       delete k s' = (Return false, s')) /\
  (dict_contains (storage s) k = false ->
     delete k s = (Return false, s)).
Proof.
  intros Hwf.
  assert (Hpresent : dict_contains (storage s) k = true ->
     exists s',
       delete k s = (Return true, s') /\
       get_by_id k s' = (Return None, s') /\
       delete k s' = (Return false, s')).
  { intros H. destruct (delete_present s k H) as (d & Hd & Hdel).
    eexists. split; [exact Hdel|].
    pose proof (dict_delitem_gone _ _ _ Hwf Hd) as Hgone.
    split.
    - unfold get_by_id, storage_get. simpl.
      rewrite dict_contains_get in Hgone.
      destruct (dict_get d k); [discriminate | reflexivity].
    - now apply delete_absent. }
  split; [|split; [exact Hpresent | apply delete_absent]].
  destruct (dict_contains (storage s) k) eqn:E.
  - destruct (Hpresent eq_refl) as (s' & Hs' & _). eauto.
  - rewrite (delete_absent s k E). eauto.
Qed.

Lemma C4_delete_witness :
  dict_wf (storage sample_state) /\
  (exists s',
     delete "u-1" sample_state = (Return true, s') /\
     get_by_id "u-1" s' = (Return None, s') /\
     delete "u-1" s' = (Return false, s')) /\
  delete "u-9" sample_state = (Return false, sample_state).
Proof.
  assert (Hwf : dict_wf (storage sample_state)).
  { repeat constructor; simpl; intuition discriminate. }
  split; [exact Hwf|].
  destruct (C4_delete_observable sample_state "u-1" Hwf) as (_ & Hp & _).
  destruct (C4_delete_observable sample_state "u-9" Hwf) as (_ & _ & Ha).
  split; [apply Hp | apply Ha]; reflexivity.
Defined.

(** C5: [create e] always returns [e] and stores it under [e.id]: a lookup
    of that key then gives [e], every other key keeps its value, an entry
    already under [e.id] is replaced where it stands, and a new key is
    appended. *)
Theorem C5_create_inserts_or_overwrites (s : State) (e : ref) :
  exists s',
    create e s = (Return e, s') /\
    heap s' = heap s /\
    dict_get (storage s') (id (heap s e)) = Some e /\
    (forall k', k' <> id (heap s e) ->
       dict_get (storage s') k' = dict_get (storage s) k') /\
    (dict_contains (storage s) (id (heap s e)) = true ->
       exists l1 old l2,
         storage s = l1 ++ (id (heap s e), old) :: l2 /\
         storage s' = l1 ++ (id (heap s e), e) :: l2) /\
    (dict_contains (storage s) (id (heap s e)) = false ->
       storage s' = storage s ++ [(id (heap s e), e)]).
Proof.
  eexists. split; [apply create_spec|]. simpl.
  split; [reflexivity|].
  split; [apply dict_get_setitem_same|].
  split; [intros k' Hne; now apply dict_get_setitem_other|].
  split.
  - intros H.
    destruct (dict_setitem_present _ _ e H) as (l1 & old & l2 & H1 & H2 & _).
    now exists l1, old, l2.
  - apply dict_setitem_absent.
Qed.

(* ================================================================== *)
(** ** Listing, delegation and frame properties                        *)
(* ================================================================== *)

Lemma get_all_spec (s : State) :
  get_all s = (Return (dict_values (storage s)), s).
Proof. reflexivity. Qed.

Lemma create_create_delete_list_spec (h : Heap) (e1 e2 : ref) :
  fst (create_create_delete_list e1 e2 (init h)) =
  Return (if String.eqb (id (h e1)) (id (h e2)) then [] else [e2]).
Proof.
  unfold create_create_delete_list. run_service. run_py.
  destruct (String.eqb_spec (id (h e2)) (id (h e1))) as [E|E]; simpl.
  - rewrite !String.eqb_refl. simpl. rewrite E, String.eqb_refl. reflexivity.
  - rewrite !String.eqb_refl. simpl. rewrite !String.eqb_refl.
    destruct (String.eqb_spec (id (h e1)) (id (h e2))); [congruence|].
    reflexivity.
Qed.

(** The claim as the specification words it, for any two entities,
    fails when both carry the same id: the second [create] overwrites the
    first and [delete] then empties the store. *)
Lemma C6_same_id_counterexample :
  id (sample_heap 0) = id (sample_heap 2) /\
  fst (create_create_delete_list 0 2 (init sample_heap)) = Return [] /\
  fst (create_create_delete_list 0 2 (init sample_heap)) <> Return [2].
Proof. repeat split. discriminate. Qed.

(** C6, amended: [list_all] returns the values of [storage] in the order of
    the dictionary, which are exactly the entities a lookup can reach; a
    [create] under a new key appends to that list, a [delete] removes one
    element and keeps the order of the others; and on a fresh repository
    [create(e1); create(e2); delete(e1.id); list_all()] returns [[e2]]
    provided [e1.id] and [e2.id] differ. *)
Theorem C6_list_reflects_store (s : State) (e1 e2 : ref) :
  dict_wf (storage s) ->
  (exists l,
     use_cases.list_all crud_service s = (Return l, s) /\
     get_all s = (Return l, s) /\
     l = dict_values (storage s) /\
     forall r, In r l <-> exists k, get_by_id k s = (Return (Some r), s)) /\
  (forall e, dict_contains (storage s) (id (heap s e)) = false ->
     exists s',
       create e s = (Return e, s') /\
       get_all s' = (Return (dict_values (storage s) ++ [e]), s')) /\
  (forall k, dict_contains (storage s) k = true ->
     exists l1 v l2 s',
       dict_values (storage s) = l1 ++ v :: l2 /\
       get_by_id k s = (Return (Some v), s) /\
       delete k s = (Return true, s') /\
       get_all s' = (Return (l1 ++ l2), s')) /\
  (id (heap s e1) <> id (heap s e2) ->
     fst (create_create_delete_list e1 e2 (init (heap s))) = Return [e2]).
Proof.
  intros Hwf. repeat split.
  - exists (dict_values (storage s)). repeat split.
    + intros Hin. apply (dict_values_stored _ _ Hwf) in Hin.
      destruct Hin as [k Hk]. exists k.
      unfold get_by_id, storage_get. now rewrite Hk.
    + intros [k Hk]. apply (dict_values_stored _ _ Hwf). exists k.
      unfold get_by_id, storage_get in Hk. congruence.
  - intros e H. eexists. split; [apply create_spec|].
    rewrite get_all_spec. simpl.
    rewrite (dict_setitem_absent _ _ _ H).
    unfold dict_values. now rewrite map_app.
  - intros k H. destruct (delete_present s k H) as (d & Hd & Hdel).
    destruct (dict_delitem_split _ _ _ Hd) as (l1 & v & l2 & Hs & -> & Hl1).
    exists (map snd l1), v, (map snd l2). eexists.
    split; [|split; [|split; [exact Hdel|]]].
    + rewrite Hs. unfold dict_values. now rewrite map_app.
    + unfold get_by_id, storage_get. rewrite Hs, dict_get_app.
      rewrite dict_contains_get in Hl1.
      destruct (dict_get l1 k); [discriminate|].
      simpl. now rewrite String.eqb_refl.
    + rewrite get_all_spec. simpl. unfold dict_values. now rewrite map_app.
  - intros Hne. rewrite create_create_delete_list_spec.
    destruct (String.eqb_spec (id (heap s e1)) (id (heap s e2)));
      [contradiction | reflexivity].
Qed.

Lemma C6_list_reflects_store_witness :
  dict_wf (storage sample_state) /\
  id (heap sample_state 0) <> id (heap sample_state 1) /\
  fst (create_create_delete_list 0 1 (init (heap sample_state))) = Return [1].
Proof.
  assert (Hwf : dict_wf (storage sample_state)).
  { repeat constructor; simpl; intuition discriminate. }
  split; [exact Hwf|]. split; [discriminate|].
  destruct (C6_list_reflects_store sample_state 0 1 Hwf) as (_ & _ & _ & H).
  apply H. discriminate.
Defined.

(** C7: each of the five service methods is the repository method it
    names, on every repository implementation, state and argument: same
    outcome (value or exception) and same final state.  In particular the
    [ValueError] of the in-memory [update] comes out of the service
    unchanged. *)
Theorem C7_service_is_pass_through
    (S : Type) (self : use_cases.CRUDService S)
    (s : S) (k : string) (e : ref) :
  use_cases.get self k s =
    @interfaces.get_by_id S (use_cases.repository self) k s /\
  use_cases.list_all self s =
    @interfaces.get_all S (use_cases.repository self) s /\
  use_cases.create self e s =
    @interfaces.create S (use_cases.repository self) e s /\
  use_cases.update self k e s =
    @interfaces.update S (use_cases.repository self) k e s /\
  use_cases.delete self k s =
    @interfaces.delete S (use_cases.repository self) k s /\
  (forall (st : State),
     use_cases.get crud_service k st = get_by_id k st /\
     use_cases.list_all crud_service st = get_all st /\
     use_cases.create crud_service e st = create e st /\
     use_cases.update crud_service k e st = update k e st /\
     use_cases.delete crud_service k st = delete k st /\
     (dict_contains (storage st) k = false ->
        use_cases.update crud_service k e st =
        (Raise (ValueError "Entity not found"), st))).
Proof.
  repeat split. intros H. run_service. now apply update_absent.
Qed.

Lemma update_heap (k : string) (e : ref) (s : State) :
  heap (snd (update k e s)) = heap s.
Proof.
  run_py. destruct (dict_contains (storage s) k); reflexivity.
Qed.

Lemma delete_heap (k : string) (s : State) :
  heap (snd (delete k s)) = heap s.
Proof.
  run_py. destruct (dict_contains (storage s) k); simpl; [|reflexivity].
  destruct (dict_delitem (storage s) k); reflexivity.
Qed.

Lemma perform_heap (c : Call) (s : State) : heap (snd (perform c s)) = heap s.
Proof.
  destruct c as [k| |e|k e|k]; try reflexivity; run_service.
  - rewrite <- (update_heap k e s). unfold bind, ret.
    destruct (update k e s) as [[a|x] s']; reflexivity.
  - rewrite <- (delete_heap k s). unfold bind, ret.
    destruct (delete k s) as [[a|x] s']; reflexivity.
Qed.

Lemma perform_all_heap (cs : list Call) (s : State) :
  heap (perform_all cs s) = heap s.
Proof.
  revert s. induction cs as [|c cs IH]; simpl; intros s; [reflexivity|].
  now rewrite IH, perform_heap.
Qed.

(** A call only looks at the [id] field of the objects. *)
Lemma perform_same_ids (c : Call) (s1 s2 : State) :
  same_ids (heap s1) (heap s2) -> storage s1 = storage s2 ->
  fst (perform c s1) = fst (perform c s2) /\
  storage (snd (perform c s1)) = storage (snd (perform c s2)).
Proof.
  destruct s1 as [h1 d], s2 as [h2 d2]. simpl. intros Hid <-.
  destruct c as [k| |e|k e|k]; run_service; run_py.
  - auto.
  - auto.
  - now rewrite (Hid e).
  - destruct (dict_contains d k); simpl; auto.
  - destruct (dict_contains d k); simpl; auto.
    destruct (dict_delitem d k); simpl; auto.
Qed.

Lemma perform_all_same_ids (cs : list Call) (s1 s2 : State) :
  same_ids (heap s1) (heap s2) -> storage s1 = storage s2 ->
  storage (perform_all cs s1) = storage (perform_all cs s2).
Proof.
  revert s1 s2. induction cs as [|c cs IH]; simpl; intros s1 s2 Hid Hst.
  - exact Hst.
  - apply IH.
    + now rewrite !perform_heap.
    + now apply perform_same_ids.
Qed.

Lemma perform_stored (c : Call) (s : State) (r : ref) :
  In r (dict_values (storage (snd (perform c s)))) ->
  In r (submitted [c]) \/ In r (dict_values (storage s)).
Proof.
  destruct c as [k| |e|k e|k]; run_service; run_py; auto.
  - intros H. apply dict_values_setitem_In in H. destruct H; auto.
  - destruct (dict_contains (storage s) k); simpl; auto.
    intros H. apply dict_values_setitem_In in H. destruct H; auto.
  - destruct (dict_contains (storage s) k); simpl; auto.
    destruct (dict_delitem (storage s) k) as [d|] eqn:Hd; simpl; auto.
    intros H. right. eapply dict_values_delitem_In; eauto.
Qed.

Lemma perform_all_stored (cs : list Call) (s : State) (r : ref) :
  In r (dict_values (storage (perform_all cs s))) ->
  In r (submitted cs) \/ In r (dict_values (storage s)).
Proof.
  revert s. induction cs as [|c cs IH]; simpl; intros s H; [now right|].
  destruct (IH _ H) as [Hin|Hin].
  - left. destruct c; simpl; auto.
  - destruct (perform_stored c s r Hin) as [Hc|Hc]; [|now right].
    left. destruct c; simpl in *; tauto.
Qed.

(** C8: no repository or service method writes any field of any object
    (so no [id] is regenerated or changed), none reads a field other than
    [id] (outcomes and store are the same on any heap with the same ids),
    and after any script of calls each stored entity is one that was
    stored before or was handed to [create] or [update], with the fields
    it has always had. *)
Theorem C8_dead_fields_and_id_frame
    (cs : list Call) (s : State) (h' : Heap) :
  same_ids (heap s) h' ->
  (forall k e,
     heap (snd (get_by_id k s)) = heap s /\
     heap (snd (get_all s)) = heap s /\
     heap (snd (create e s)) = heap s /\
     heap (snd (update k e s)) = heap s /\
     heap (snd (delete k s)) = heap s) /\
  (forall c, heap (snd (perform c s)) = heap s) /\
  heap (perform_all cs s) = heap s /\
  (forall c,
     fst (perform c {| heap := h'; storage := storage s |}) =
       fst (perform c s) /\
     storage (snd (perform c {| heap := h'; storage := storage s |})) =
       storage (snd (perform c s))) /\
  storage (perform_all cs {| heap := h'; storage := storage s |}) =
    storage (perform_all cs s) /\
  (forall k r,
     dict_get (storage (perform_all cs s)) k = Some r ->
     (In r (submitted cs) \/ In r (dict_values (storage s))) /\
     same_fields (heap (perform_all cs s) r) (heap s r)).
Proof.
  intros Hid.
  split; [|split; [|split; [|split; [|split]]]].
  - intros k e. repeat split.
    + apply update_heap.
    + apply delete_heap.
  - intros c. apply perform_heap.
  - apply perform_all_heap.
  - intros c. apply perform_same_ids; simpl; [|reflexivity].
    intros r. symmetry. apply Hid.
  - apply perform_all_same_ids; simpl; [|reflexivity].
    intros r. symmetry. apply Hid.
  - intros k r Hget. split.
    + apply perform_all_stored. unfold dict_values.
      apply in_map_iff. exists (k, r). split; [reflexivity|].
      now apply dict_get_In.
    + apply same_fields_eq. now rewrite perform_all_heap.
Qed.

Lemma C8_frame_witness :
  same_ids (heap (init sample_heap)) sample_heap_touched /\
  heap (perform_all sample_script (init sample_heap)) = sample_heap /\
  storage (perform_all sample_script (init sample_heap_touched)) =
    storage (perform_all sample_script (init sample_heap)).
Proof.
  assert (Hid : same_ids (heap (init sample_heap)) sample_heap_touched).
  { intros r. reflexivity. }
  split; [exact Hid|].
  destruct (C8_dead_fields_and_id_frame sample_script (init sample_heap)
              sample_heap_touched Hid) as (_ & _ & Hh & _ & Hs & _).
  split; [exact Hh | exact Hs].
Defined.

(** C10: [get_by_id] and [get_all], and the service's [get] and
    [list_all], end in the state they started in; a call after which
    [storage] differs is a [create], an [update] or a [delete]. *)
Theorem C10_reads_leave_store_unchanged (s : State) (k : string) :
  snd (get_by_id k s) = s /\
  snd (get_all s) = s /\
  snd (use_cases.get crud_service k s) = s /\
  snd (use_cases.list_all crud_service s) = s /\
  (forall c, storage (snd (perform c s)) <> storage s ->
     exists k' e,
       c = CallCreate e \/ c = CallUpdate k' e \/ c = CallDelete k').
Proof.
  repeat split.
  intros c Hc. destruct c as [k'| |e|k' e|k'].
  - now elim Hc.
  - now elim Hc.
  - exists "", e. auto.
  - exists k', e. auto.
  - exists k', 0. auto.
Qed.

(* ================================================================== *)
(** ** Generated identities                                            *)
(* ================================================================== *)

Section UuidFacts.

Import uuid.
Local Open Scope Z_scope.

Lemma from_bytes_acc_bounds (bs : list byte) (acc : Z) :
  0 <= acc ->
  0 <= fold_left (fun a b => a * 256 + Z.of_N (Byte.to_N b)) bs acc
    < (acc + 1) * 256 ^ Z.of_nat (List.length bs).
Proof.
  revert acc. induction bs as [|b bs IH]; intros acc Hacc.
  - simpl. lia.
  - cbn [fold_left List.length].
    rewrite Nat2Z.inj_succ, Z.pow_succ_r by lia.
    pose proof (Byte.to_N_bounded b) as Hb.
    specialize (IH (acc * 256 + Z.of_N (Byte.to_N b))).
    assert (0 < 256 ^ Z.of_nat (List.length bs))
      by (apply Z.pow_pos_nonneg; lia).
    nia.
Qed.

(** Sixteen bytes make a 128-bit number. *)
Lemma from_bytes_16 (rnd : list byte) :
  List.length rnd = 16%nat -> 0 <= from_bytes rnd < 2 ^ 128.
Proof.
  intros H. pose proof (from_bytes_acc_bounds rnd 0 (Z.le_refl 0)) as B.
  rewrite H in B. exact B.
Qed.

(** The four mask-and-set steps of [uuid4] come to: keep the free bits,
    set the fixed ones. *)
Lemma uuid4_int_split (rnd : list byte) :
  List.length rnd = 16%nat ->
  uuid4_int rnd = Z.lor (free_bits rnd) fixed_bits.
Proof.
  intros H. unfold uuid4_int, free_bits.
  set (i := from_bytes rnd).
  assert (Hi : i = Z.land i (Z.ones 128)).
  { rewrite Z.land_ones by lia. symmetry. apply Z.mod_small.
    now apply from_bytes_16. }
  rewrite !Z.land_lor_distr_l, <- !Z.land_assoc, <- Z.lor_assoc.
  rewrite Hi at 1. rewrite <- Z.land_assoc. reflexivity.
Qed.

Lemma free_bits_of_uuid4_int (rnd : list byte) :
  List.length rnd = 16%nat ->
  Z.land (uuid4_int rnd mod 2 ^ 128) free_mask = free_bits rnd.
Proof.
  intros H. rewrite uuid4_int_split by exact H. unfold free_bits.
  rewrite <- Z.land_ones by lia.
  rewrite !Z.land_lor_distr_l, <- !Z.land_assoc.
  change (Z.land fixed_bits (Z.land (Z.ones 128) free_mask)) with 0.
  change (Z.land free_mask (Z.land (Z.ones 128) free_mask)) with free_mask.
  now rewrite Z.lor_0_r.
Qed.

Lemma hex_value_char (n : Z) : 0 <= n < 16 -> hex_value (hex_char n) = n.
Proof.
  intros H.
  assert (Hdigit : forall k, (k < 16)%nat ->
            hex_value (hex_char (Z.of_nat k)) = Z.of_nat k).
  { intros k Hk. do 16 (destruct k as [|k]; [reflexivity|]). lia. }
  rewrite <- (Z2Nat.id n) by lia. apply Hdigit. lia.
Qed.

Lemma hex_digits_length (w : nat) (n : Z) :
  List.length (hex_digits w n) = w.
Proof.
  revert n. induction w as [|w IH]; intros n; simpl; [reflexivity|].
  rewrite length_app, IH. simpl. lia.
Qed.

(** Equal digit strings of width [w] mean equal numbers modulo
    [16 ^ w]. *)
Lemma hex_digits_inj (w : nat) (a b : Z) :
  hex_digits w a = hex_digits w b ->
  a mod 16 ^ Z.of_nat w = b mod 16 ^ Z.of_nat w.
Proof.
  revert a b. induction w as [|w IH]; intros a b H.
  - simpl. now rewrite !Z.mod_1_r.
  - simpl in H. apply app_inj_tail in H. destruct H as [Hhi Hlo].
    apply IH in Hhi.
    apply (f_equal hex_value) in Hlo.
    rewrite !hex_value_char in Hlo by (apply Z.mod_pos_bound; lia).
    rewrite Nat2Z.inj_succ, Z.pow_succ_r by lia.
    assert (0 < 16 ^ Z.of_nat w) by (apply Z.pow_pos_nonneg; lia).
    rewrite !Z.rem_mul_r by lia. now rewrite Hhi, Hlo.
Qed.

Lemma unlayout_layout (hex : list ascii) :
  List.length hex = 32%nat -> unlayout (layout hex) = hex.
Proof.
  intros H.
  do 32 (destruct hex as [|? hex]; [discriminate H|]).
  destruct hex; [reflexivity | discriminate H].
Qed.

Lemma string_of_list_ascii_inj (l1 l2 : list ascii) :
  string_of_list_ascii l1 = string_of_list_ascii l2 -> l1 = l2.
Proof.
  intros H. apply (f_equal list_ascii_of_string) in H.
  now rewrite !list_ascii_of_string_of_list_ascii in H.
Qed.

Lemma str_of_int_inj (a b : Z) :
  str_of_int a = str_of_int b -> a mod 2 ^ 128 = b mod 2 ^ 128.
Proof.
  unfold str_of_int. intros H. apply string_of_list_ascii_inj in H.
  apply (f_equal unlayout) in H.
  rewrite !unlayout_layout in H by apply hex_digits_length.
  now apply hex_digits_inj in H.
Qed.

(** Two generated identity strings are equal exactly when the draws
    agree on the free bits. *)
Lemma str_uuid4_eq_iff (r1 r2 : list byte) :
  List.length r1 = 16%nat -> List.length r2 = 16%nat ->
  (str_uuid4 r1 = str_uuid4 r2 <-> free_bits r1 = free_bits r2).
Proof.
  intros H1 H2. unfold str_uuid4. split.
  - intros H. apply str_of_int_inj in H.
    rewrite <- (free_bits_of_uuid4_int r1 H1).
    rewrite <- (free_bits_of_uuid4_int r2 H2).
    now rewrite H.
  - intros H. rewrite !uuid4_int_split by assumption. now rewrite H.
Qed.

End UuidFacts.

Lemma default_constructed_id (rnd : list byte) (u : User) :
  default_constructed rnd u -> id u = uuid.str_uuid4 rnd.
Proof. intros (ca & ua & ia & da & n & m & ->). reflexivity. Qed.

(** Two different draws, one identity: the draws differ only in the
    version nibble, which [uuid4] overwrites.  Both entities are built
    without an explicit id, both [create] calls return their argument, and
    the second overwrites the first in the store. *)
Lemma C9_colliding_draws_counterexample :
  draw_zero <> draw_version /\
  default_constructed draw_zero (generated_heap 0) /\
  default_constructed draw_version (generated_heap 1) /\
  id (generated_heap 0) = "00000000-0000-4000-8000-000000000000" /\
  id (generated_heap 1) = "00000000-0000-4000-8000-000000000000" /\
  exists s1 s2,
    create 0 (init generated_heap) = (Return 0, s1) /\
    create 1 s1 = (Return 1, s2) /\
    id (heap s2 0) = id (heap s2 1) /\
    get_all s2 = (Return [1], s2).
Proof.
  split; [discriminate|].
  split; [unfold default_constructed, generated_heap, User_named; eauto 10|].
  split; [unfold default_constructed, generated_heap, User_named; eauto 10|].
  split; [reflexivity|]. split; [reflexivity|].
  eexists. eexists. split; [apply create_spec|].
  split; [apply create_spec|]. split; reflexivity.
Qed.

(** C9, amended: two entities built without an explicit id have equal ids
    exactly when the two 16-byte draws agree on the 122 bits that [uuid4]
    keeps; when the draws differ there, two [create] calls return the two
    entities with distinct ids and both are in the store. *)
Theorem C9_generated_ids_distinct
    (rnd1 rnd2 : list byte) (s : State) (e1 e2 : ref) :
  List.length rnd1 = 16 -> List.length rnd2 = 16 ->
  default_constructed rnd1 (heap s e1) ->
  default_constructed rnd2 (heap s e2) ->
  (id (heap s e1) = id (heap s e2) <->
   uuid.free_bits rnd1 = uuid.free_bits rnd2) /\
  (uuid.free_bits rnd1 <> uuid.free_bits rnd2 ->
   exists s1 s2,
     create e1 s = (Return e1, s1) /\
     create e2 s1 = (Return e2, s2) /\
     id (heap s2 e1) <> id (heap s2 e2) /\
     get_by_id (id (heap s2 e1)) s2 = (Return (Some e1), s2) /\
     get_by_id (id (heap s2 e2)) s2 = (Return (Some e2), s2)).
Proof.
  intros H1 H2 D1 D2.
  apply default_constructed_id in D1, D2.
  assert (Hiff : id (heap s e1) = id (heap s e2) <->
                 uuid.free_bits rnd1 = uuid.free_bits rnd2).
  { rewrite D1, D2. now apply str_uuid4_eq_iff. }
  split; [exact Hiff|].
  intros Hne.
  assert (Hid : id (heap s e1) <> id (heap s e2)) by (now rewrite Hiff).
  eexists. eexists. split; [apply create_spec|].
  split; [apply create_spec|]. simpl.
  split; [exact Hid|].
  unfold get_by_id, storage_get. simpl. split.
  - rewrite dict_get_setitem_other by exact Hid.
    now rewrite dict_get_setitem_same.
  - now rewrite dict_get_setitem_same.
Qed.

Lemma C9_generated_ids_witness :
  List.length draw_zero = 16 /\ List.length draw_ones = 16 /\
  uuid.free_bits draw_zero <> uuid.free_bits draw_ones /\
  id (heap (init generated_heap) 0) <> id (heap (init generated_heap) 2).
Proof.
  assert (D0 : default_constructed draw_zero (heap (init generated_heap) 0)).
  { unfold default_constructed, generated_heap, User_named. simpl. eauto 10. }
  assert (D2 : default_constructed draw_ones (heap (init generated_heap) 2)).
  { unfold default_constructed, generated_heap, User_named. simpl. eauto 10. }
  assert (Hne : uuid.free_bits draw_zero <> uuid.free_bits draw_ones).
  { vm_compute. discriminate. }
  split; [reflexivity|]. split; [reflexivity|]. split; [exact Hne|].
  destruct (C9_generated_ids_distinct draw_zero draw_ones
              (init generated_heap) 0 2 eq_refl eq_refl D0 D2)
    as [Hiff _].
  intros Heq. apply Hne. now apply Hiff.
Defined.

Example free_mask_value :
  uuid.free_mask = 0xffffffffffff0fff3fffffffffffffff%Z.
Proof. reflexivity. Qed.

(** The identity strings of two known draws, as CPython prints them. *)
Example str_uuid4_ones :
  uuid.str_uuid4 draw_ones = "ffffffff-ffff-4fff-bfff-ffffffffffff".
Proof. reflexivity. Qed.

Example str_uuid4_counting :
  uuid.str_uuid4
    [x00; x01; x02; x03; x04; x05; x06; x07;
     x08; x09; x0a; x0b; x0c; x0d; x0e; x0f]
  = "00010203-0405-4607-8809-0a0b0c0d0e0f".
Proof. reflexivity. Qed.

(* ================================================================== *)
(** ** tests/unit/test_crud_service.py                                 *)
(* ================================================================== *)

Example test_create_user :
  exists created_user s1,
    use_cases.create crud_service 0 (init generated_heap)
      = (Return created_user, s1) /\
    id (heap s1 created_user) <> "" /\
    name (heap s1 created_user) = "John Doe" /\
    email (heap s1 created_user) = "john.doe@example.com".
Proof.
  exists 0. eexists. split; [reflexivity|]. simpl.
  split; [discriminate|]. split; reflexivity.
Qed.

Example test_get_user :
  exists created_user s1 fetched_user s2,
    use_cases.create crud_service 1 (init generated_heap)
      = (Return created_user, s1) /\
    use_cases.get crud_service (id (heap s1 created_user)) s1
      = (Return (Some fetched_user), s2) /\
    id (heap s2 fetched_user) = id (heap s2 created_user) /\
    name (heap s2 fetched_user) = "Jane Doe" /\
    email (heap s2 fetched_user) = "jane.doe@example.com".
Proof.
  exists 1. eexists. exists 1. eexists.
  split; [reflexivity|]. split; [reflexivity|]. repeat split.
Qed.

Example test_update_user :
  exists created_user s1 updated_user s2,
    use_cases.create crud_service 2 (init generated_heap)
      = (Return created_user, s1) /\
    use_cases.update crud_service (id (heap s1 created_user)) created_user
        (assign_name created_user "John Smith Updated" s1)
      = (Return updated_user, s2) /\
    name (heap s2 updated_user) = "John Smith Updated".
Proof.
  exists 2. eexists. exists 2. eexists.
  split; [reflexivity|]. split; reflexivity.
Qed.

Example test_delete_user :
  exists created_user s1 s2,
    use_cases.create crud_service 1 (init generated_heap)
      = (Return created_user, s1) /\
    use_cases.delete crud_service (id (heap s1 created_user)) s1
      = (Return true, s2) /\
    use_cases.get crud_service (id (heap s1 created_user)) s2
      = (Return None, s2).
Proof.
  exists 1. eexists. eexists.
  split; [reflexivity|]. split; reflexivity.
Qed.

(** The store holds references: a field a caller assigns after [create]
    is seen by the next [get_by_id], with no [update] in between. *)
Lemma caller_assignment_is_visible (s : State) (e : ref) (v : string) :
  exists s1,
    create e s = (Return e, s1) /\
    get_by_id (id (heap s e)) (assign_name e v s1)
      = (Return (Some e), assign_name e v s1) /\
    name (heap (assign_name e v s1) e) = v.
Proof.
  eexists. split; [apply create_spec|]. split.
  - unfold get_by_id, storage_get, assign_name. simpl.
    now rewrite dict_get_setitem_same.
  - unfold assign_name, set_name. simpl. now rewrite Nat.eqb_refl.
Qed.

(* ================================================================== *)
(** ** Further facts about the dictionary operations                   *)
(* ================================================================== *)

Section DictAlgebra.

Implicit Types (d : dict) (k : string) (v : ref).

Lemma dict_setitem_idem d k v :
  dict_setitem (dict_setitem d k v) k v = dict_setitem d k v.
Proof.
  induction d as [|[k0 v0] d IH]; simpl.
  - now rewrite String.eqb_refl.
  - destruct (String.eqb k k0) eqn:E; simpl; rewrite E; [reflexivity|].
    now rewrite IH.
Qed.

Lemma dict_contains_setitem d k v : dict_contains (dict_setitem d k v) k = true.
Proof.
  rewrite dict_contains_get, dict_get_setitem_same. reflexivity.
Qed.

Lemma dict_delitem_appended d k v :
  dict_contains d k = false -> dict_delitem (d ++ [(k, v)]) k = Some d.
Proof.
  induction d as [|[k0 v0] d IH]; simpl.
  - now rewrite String.eqb_refl.
  - destruct (String.eqb k k0); [discriminate|].
    intros H. now rewrite IH.
Qed.

Lemma dict_setitem_length d k v :
  List.length (dict_setitem d k v) =
  if dict_contains d k then List.length d else S (List.length d).
Proof.
  induction d as [|[k0 v0] d IH]; simpl; [reflexivity|].
  destruct (String.eqb k k0); simpl; [reflexivity|].
  rewrite IH. now destruct (dict_contains d k).
Qed.

Lemma dict_delitem_length d k d' :
  dict_delitem d k = Some d' -> List.length d = S (List.length d').
Proof.
  intros H. destruct (dict_delitem_split d k d' H) as (l1 & w & l2 & -> & -> & _).
  rewrite !length_app. simpl. lia.
Qed.

(** Two assignments under different keys give the same dictionary up to
    the order of its entries. *)
Lemma dict_setitem_swap d k1 v1 k2 v2 :
  k1 <> k2 ->
  Permutation.Permutation
    (dict_setitem (dict_setitem d k1 v1) k2 v2)
    (dict_setitem (dict_setitem d k2 v2) k1 v1).
Proof.
  intros Hne.
  induction d as [|[k0 v0] d IH]; simpl.
  - destruct (String.eqb_spec k2 k1); [congruence|].
    destruct (String.eqb_spec k1 k2); [congruence|].
    apply Permutation.perm_swap.
  - destruct (String.eqb_spec k1 k0) as [E1|E1];
      destruct (String.eqb_spec k2 k0) as [E2|E2]; simpl.
    + congruence.
    + destruct (String.eqb_spec k2 k0); [contradiction|].
      destruct (String.eqb_spec k1 k0); [|contradiction].
      apply Permutation.Permutation_refl.
    + destruct (String.eqb_spec k2 k0); [|contradiction].
      destruct (String.eqb_spec k1 k0); [contradiction|].
      apply Permutation.Permutation_refl.
    + destruct (String.eqb_spec k2 k0); [contradiction|].
      destruct (String.eqb_spec k1 k0); [contradiction|].
      now apply Permutation.perm_skip.
Qed.

Lemma dict_get_setitem_swap d k1 v1 k2 v2 k :
  k1 <> k2 ->
  dict_get (dict_setitem (dict_setitem d k1 v1) k2 v2) k =
  dict_get (dict_setitem (dict_setitem d k2 v2) k1 v1) k.
Proof.
  intros Hne.
  destruct (String.eqb_spec k k1) as [->|H1].
  - rewrite dict_get_setitem_other by exact Hne.
    now rewrite !dict_get_setitem_same.
  - rewrite (dict_get_setitem_other (dict_setitem d k2 v2) k1 v1 k) by exact H1.
    destruct (String.eqb_spec k k2) as [->|H2].
    + now rewrite !dict_get_setitem_same.
    + now rewrite !dict_get_setitem_other by assumption.
Qed.

(** Under unique keys, values whose ids are their keys list the keys. *)
Lemma dict_values_ids d (h : Heap) :
  (forall k r, In (k, r) d -> id (h r) = k) ->
  map (fun r => id (h r)) (dict_values d) = dict_keys d.
Proof.
  unfold dict_values, dict_keys.
  induction d as [|[k0 v0] d IH]; simpl; intros H; [reflexivity|].
  rewrite (H k0 v0) by now left.
  f_equal. apply IH. intros k r Hin. apply H. now right.
Qed.

End DictAlgebra.

Lemma state_eta (s : State) : {| heap := heap s; storage := storage s |} = s.
Proof. now destruct s. Qed.

(* ================================================================== *)
(** ** Errors and presence                                             *)
(* ================================================================== *)

(** X1: the only call that can raise is an [update] whose key is not in
    the store; what it raises is [ValueError("Entity not found")], never
    the [KeyError] of [del], and the state is left as it was. *)
Theorem X1_only_update_on_missing_key_raises
    (c : Call) (s : State) (x : Exception) :
  fst (perform c s) = Raise x ->
  x = ValueError "Entity not found" /\
  (exists k e, c = CallUpdate k e /\ dict_contains (storage s) k = false) /\
  snd (perform c s) = s.
Proof.
  destruct c as [k| |e|k e|k]; run_service; run_py; try discriminate.
  - destruct (dict_contains (storage s) k) eqn:E; simpl; [discriminate|].
    intros [= <-]. split; [reflexivity|]. split; [|reflexivity].
    exists k, e. auto.
  - destruct (dict_contains (storage s) k) eqn:E; simpl; [|discriminate].
    destruct (dict_delitem_present _ _ E) as [d' ->]. simpl. discriminate.
Qed.

Lemma X1_only_update_raises_witness :
  fst (perform (CallUpdate "u-9" 0) sample_state) =
    Raise (ValueError "Entity not found") /\
  snd (perform (CallUpdate "u-9" 0) sample_state) = sample_state.
Proof.
  split; [reflexivity|].
  apply (X1_only_update_on_missing_key_raises (CallUpdate "u-9" 0)
           sample_state (ValueError "Entity not found")).
  reflexivity.
Defined.

(** X2: the three ways of asking whether a key is in the store agree:
    [get_by_id] finds an entity exactly when [update] succeeds and exactly
    when [delete] returns [True]; it returns [None] exactly when [update]
    raises and exactly when [delete] returns [False]. *)
Theorem X2_presence_agrees (s : State) (k : string) (e : ref) :
  ((exists r, fst (get_by_id k s) = Return (Some r)) <->
   fst (update k e s) = Return e) /\
  ((exists r, fst (get_by_id k s) = Return (Some r)) <->
   fst (delete k s) = Return true) /\
  (fst (get_by_id k s) = Return None <->
   fst (update k e s) = Raise (ValueError "Entity not found")) /\
  (fst (get_by_id k s) = Return None <->
   fst (delete k s) = Return false).
Proof.
  unfold get_by_id, storage_get. simpl.
  destruct (dict_contains (storage s) k) eqn:E.
  - rewrite (update_present s k e E).
    destruct (delete_present s k E) as (d & _ & ->). simpl.
    rewrite dict_contains_get in E.
    destruct (dict_get (storage s) k) as [r|]; [|discriminate].
    repeat split; try discriminate; eauto.
  - rewrite (update_absent s k e E), (delete_absent s k E). simpl.
    rewrite dict_contains_get in E.
    destruct (dict_get (storage s) k) as [r|]; [discriminate|].
    repeat split; try discriminate; intros [r H]; discriminate.
Qed.

(* ================================================================== *)
(** ** Keys and ids                                                    *)
(* ================================================================== *)

Lemma perform_keys_match_ids (c : Call) (s : State) :
  dict_wf (storage s) -> keys_match_ids s ->
  updates_keep_ids (heap s) [c] ->
  keys_match_ids (snd (perform c s)).
Proof.
  intros Hwf Hinv Hc k r. rewrite perform_heap.
  destruct c as [k0| |e|k0 e|k0]; try apply Hinv; run_service; run_py.
  - destruct (String.eqb_spec k (id (heap s e))) as [->|Hne].
    + rewrite dict_get_setitem_same. now intros [= <-].
    + rewrite dict_get_setitem_other by exact Hne. apply Hinv.
  - destruct Hc as [Hid _].
    destruct (dict_contains (storage s) k0); simpl; [|apply Hinv].
    destruct (String.eqb_spec k k0) as [->|Hne].
    + rewrite dict_get_setitem_same. now intros [= <-].
    + rewrite dict_get_setitem_other by exact Hne. apply Hinv.
  - destruct (dict_contains (storage s) k0); simpl; [|apply Hinv].
    destruct (dict_delitem (storage s) k0) as [d|] eqn:Hd; simpl;
      [|apply Hinv].
    destruct (String.eqb_spec k k0) as [->|Hne].
    + pose proof (dict_delitem_gone _ _ _ Hwf Hd) as Hgone.
      rewrite dict_contains_get in Hgone.
      destruct (dict_get d k0); discriminate.
    + rewrite (dict_get_delitem_other _ _ _ _ Hd Hne). apply Hinv.
Qed.

(** X3: if the keys of the store are the ids of the entities under them,
    they still are after any script of calls whose [update]s each pass an
    entity carrying the key it is stored under; [get], [list_all],
    [create] and [delete] can never break this. *)
Theorem X3_keys_match_ids_invariant (cs : list Call) (s : State) :
  dict_wf (storage s) -> keys_match_ids s ->
  updates_keep_ids (heap s) cs ->
  keys_match_ids (perform_all cs s).
Proof.
  revert s. induction cs as [|c cs IH]; simpl; intros s Hwf Hinv Hcs.
  - exact Hinv.
  - apply IH.
    + now apply perform_wf.
    + apply perform_keys_match_ids; try assumption.
      destruct c; simpl in *; tauto.
    + rewrite perform_heap. destruct c; simpl in *; tauto.
Qed.

Lemma X3_keys_match_ids_witness :
  dict_wf (storage (init sample_heap)) /\
  keys_match_ids (init sample_heap) /\
  updates_keep_ids sample_heap
    [CallCreate 0; CallCreate 1; CallUpdate "u-1" 2; CallDelete "u-2"] /\
  keys_match_ids
    (perform_all
       [CallCreate 0; CallCreate 1; CallUpdate "u-1" 2; CallDelete "u-2"]
       (init sample_heap)).
Proof.
  assert (Hwf : dict_wf (storage (init sample_heap))) by constructor.
  assert (Hinv : keys_match_ids (init sample_heap)).
  { intros k r H. discriminate H. }
  assert (Hcs : updates_keep_ids (heap (init sample_heap))
            [CallCreate 0; CallCreate 1; CallUpdate "u-1" 2;
             CallDelete "u-2"]).
  { simpl. auto. }
  split; [exact Hwf|]. split; [exact Hinv|]. split; [exact Hcs|].
  exact (X3_keys_match_ids_invariant _ _ Hwf Hinv Hcs).
Defined.

(** X4: in a store whose keys are the ids of its entities, [get_all]
    lists each entity once and no two listed entities share an id: the
    ids of the list are the keys of the store, in order. *)
Theorem X4_listing_has_distinct_ids (s : State) :
  dict_wf (storage s) -> keys_match_ids s ->
  exists l,
    get_all s = (Return l, s) /\
    map (fun r => id (heap s r)) l = dict_keys (storage s) /\
    NoDup (map (fun r => id (heap s r)) l) /\
    NoDup l.
Proof.
  intros Hwf Hinv. exists (dict_values (storage s)).
  split; [reflexivity|].
  assert (Hids : map (fun r => id (heap s r)) (dict_values (storage s)) =
                 dict_keys (storage s)).
  { apply dict_values_ids. intros k r Hin. apply Hinv.
    now apply dict_In_get. }
  split; [exact Hids|].
  assert (Hnd : NoDup (map (fun r => id (heap s r)) (dict_values (storage s)))).
  { rewrite Hids. exact Hwf. }
  split; [exact Hnd|]. eapply NoDup_map_inv; eauto.
Qed.

Lemma X4_listing_witness :
  dict_wf (storage sample_state) /\ keys_match_ids sample_state /\
  exists l,
    get_all sample_state = (Return l, sample_state) /\
    map (fun r => id (heap sample_state r)) l = ["u-1"; "u-2"] /\
    NoDup l.
Proof.
  assert (Hwf : dict_wf (storage sample_state)).
  { repeat constructor; simpl; intuition discriminate. }
  assert (Hinv : keys_match_ids sample_state).
  { intros k r. unfold sample_state. simpl.
    destruct (String.eqb_spec k "u-1") as [->|_]; [now intros [= <-]|].
    destruct (String.eqb_spec k "u-2") as [->|_]; [now intros [= <-]|].
    discriminate. }
  split; [exact Hwf|]. split; [exact Hinv|].
  destruct (X4_listing_has_distinct_ids sample_state Hwf Hinv)
    as (l & Hl & Hids & _ & Hnd).
  exists l. auto.
Defined.

(** X5: a [create] under a key the store does not have is undone by the
    [delete] of that key: [delete] returns [True] and the state is the one
    before the [create]. *)
Theorem X5_delete_undoes_fresh_create (s : State) (e : ref) :
  dict_contains (storage s) (id (heap s e)) = false ->
  exists s1,
    create e s = (Return e, s1) /\
    delete (id (heap s e)) s1 = (Return true, s).
Proof.
  intros H. eexists. split; [apply create_spec|].
  rewrite (dict_setitem_absent _ _ e H).
  run_py. rewrite dict_contains_app. simpl. rewrite String.eqb_refl.
  rewrite orb_true_r. simpl.
  rewrite (dict_delitem_appended _ _ e H). simpl.
  now rewrite state_eta.
Qed.

Lemma X5_delete_undoes_create_witness :
  dict_contains (storage sample_state) (id (heap sample_state 3)) = true /\
  dict_contains (storage (init sample_heap)) (id (sample_heap 0)) = false /\
  exists s1,
    create 0 (init sample_heap) = (Return 0, s1) /\
    delete "u-1" s1 = (Return true, init sample_heap).
Proof.
  split; [reflexivity|]. split; [reflexivity|].
  apply (X5_delete_undoes_fresh_create (init sample_heap) 0). reflexivity.
Defined.

(* ================================================================== *)
(** ** How the operations compose                                      *)
(* ================================================================== *)

(** X6: on an entity whose [id] is already a key of the store, [update]
    under that key and [create] are the same operation: same result, same
    final state. *)
Theorem X6_update_is_create_on_present_id (s : State) (e : ref) :
  dict_contains (storage s) (id (heap s e)) = true ->
  update (id (heap s e)) e s = create e s.
Proof.
  intros H. now rewrite (update_present s _ e H), create_spec.
Qed.

Lemma X6_update_is_create_witness :
  dict_contains (storage sample_state) (id (heap sample_state 2)) = true /\
  update "u-1" 2 sample_state = create 2 sample_state.
Proof.
  split; [reflexivity|].
  apply (X6_update_is_create_on_present_id sample_state 2). reflexivity.
Defined.

(** X7: [create] of the same entity twice in a row is [create] once: the
    second call returns the entity and changes nothing. *)
Theorem X7_create_twice_is_create_once (s : State) (e : ref) :
  exists s1,
    create e s = (Return e, s1) /\
    create e s1 = (Return e, s1).
Proof.
  eexists. split; [apply create_spec|].
  rewrite create_spec. simpl. now rewrite dict_setitem_idem.
Qed.

(** X8: how many entities [get_all] lists: one more after a [create]
    under a new key, as many after a [create] under an existing key or
    after any [update], one fewer after a [delete] that returns [True],
    as many after one that returns [False]. *)
Theorem X8_listing_length (s : State) (k : string) (e : ref) :
  let count := fun s' => List.length (dict_values (storage s')) in
  (fst (get_all s) = Return (dict_values (storage s))) /\
  count (snd (create e s)) =
    (if dict_contains (storage s) (id (heap s e)) then count s
     else S (count s)) /\
  count (snd (update k e s)) = count s /\
  (fst (delete k s) = Return true -> S (count (snd (delete k s))) = count s) /\
  (fst (delete k s) = Return false -> count (snd (delete k s)) = count s).
Proof.
  unfold dict_values. cbv beta zeta. rewrite ?length_map.
  split; [reflexivity|]. split; [|split; [|split]].
  - rewrite create_spec. simpl. rewrite ?length_map.
    apply dict_setitem_length.
  - destruct (dict_contains (storage s) k) eqn:E.
    + rewrite (update_present s k e E). simpl. rewrite ?length_map.
      rewrite dict_setitem_length. now rewrite E.
    + now rewrite (update_absent s k e E).
  - destruct (dict_contains (storage s) k) eqn:E.
    + destruct (delete_present s k E) as (d & Hd & ->). simpl.
      rewrite ?length_map. intros _. symmetry.
      now apply (dict_delitem_length _ k).
    + rewrite (delete_absent s k E). discriminate.
  - destruct (dict_contains (storage s) k) eqn:E.
    + destruct (delete_present s k E) as (d & Hd & ->). discriminate.
    + now rewrite (delete_absent s k E).
Qed.

(** X9: [delete] touches one key only: a lookup of any other key gives
    after the call what it gave before. *)
Theorem X9_delete_leaves_other_keys (s : State) (k k' : string) :
  k' <> k ->
  fst (get_by_id k' (snd (delete k s))) = fst (get_by_id k' s).
Proof.
  intros Hne. unfold get_by_id, storage_get. simpl.
  destruct (dict_contains (storage s) k) eqn:E.
  - destruct (delete_present s k E) as (d & Hd & ->). simpl.
    now rewrite (dict_get_delitem_other _ _ _ _ Hd Hne).
  - now rewrite (delete_absent s k E).
Qed.

Lemma X9_delete_leaves_other_keys_witness :
  "u-2" <> "u-1" /\
  fst (get_by_id "u-2" (snd (delete "u-1" sample_state))) = Return (Some 1).
Proof.
  assert (Hne : "u-2" <> "u-1") by discriminate.
  split; [exact Hne|].
  rewrite (X9_delete_leaves_other_keys sample_state "u-1" "u-2" Hne).
  reflexivity.
Defined.

(** X10: replacing an entity by [update] keeps its place in the listing;
    replacing it by [delete] then [create] moves it to the end. *)
Theorem X10_update_keeps_place_recreate_moves_last
    (s : State) (e : ref) :
  dict_wf (storage s) ->
  dict_contains (storage s) (id (heap s e)) = true ->
  exists l1 old l2,
    fst (get_all s) = Return (l1 ++ old :: l2) /\
    fst (get_all (snd (update (id (heap s e)) e s))) =
      Return (l1 ++ e :: l2) /\
    fst (get_all (snd (create e (snd (delete (id (heap s e)) s))))) =
      Return (l1 ++ l2 ++ [e]).
Proof.
  intros Hwf H.
  destruct (delete_present s _ H) as (d & Hd & Hdel).
  destruct (dict_delitem_split _ _ _ Hd) as (l1 & old & l2 & Hs & -> & Hl1).
  exists (map snd l1), old, (map snd l2).
  rewrite !get_all_spec. cbn [fst]. unfold dict_values.
  split; [now rewrite Hs, map_app|]. split.
  - rewrite (update_present s _ e H). simpl.
    destruct (dict_setitem_present _ _ e H) as (m1 & w & m2 & Hs' & -> & Hm1).
    rewrite Hs in Hs'.
    assert (Hsame : l1 = m1 /\ l2 = m2).
    { clear - Hs' Hl1 Hm1. revert m1 Hs' Hm1.
      induction l1 as [|[k0 v0] l1 IH]; intros [|[k1 v1] m1]; simpl;
        intros Heq Hm1.
      - inversion Heq. auto.
      - inversion Heq; subst. rewrite String.eqb_refl in Hm1. discriminate.
      - inversion Heq; subst. simpl in Hl1.
        rewrite String.eqb_refl in Hl1. discriminate.
      - inversion Heq; subst. simpl in Hl1.
        destruct (String.eqb (id (heap s e)) k1); [discriminate|].
        destruct (IH Hl1 m1 H2 Hm1) as [-> ->]. auto. }
    destruct Hsame as [<- <-]. now rewrite map_app.
  - rewrite Hdel. cbn [snd]. rewrite create_spec. simpl.
    pose proof (dict_delitem_gone _ _ _ Hwf Hd) as Hgone.
    rewrite (dict_setitem_absent _ _ e Hgone).
    now rewrite !map_app, <- app_assoc.
Qed.

Lemma X10_update_keeps_place_witness :
  dict_wf (storage sample_state) /\
  dict_contains (storage sample_state) (id (heap sample_state 2)) = true /\
  fst (get_all (snd (update "u-1" 2 sample_state))) = Return [2; 1] /\
  fst (get_all (snd (create 2 (snd (delete "u-1" sample_state))))) =
    Return [1; 2].
Proof.
  assert (Hwf : dict_wf (storage sample_state)).
  { repeat constructor; simpl; intuition discriminate. }
  split; [exact Hwf|]. split; [reflexivity|].
  destruct (X10_update_keeps_place_recreate_moves_last sample_state 2
              Hwf eq_refl) as (l1 & old & l2 & _ & _ & _).
  split; reflexivity.
Defined.

(** X11: two [create]s of entities with different ids can be made in
    either order: every lookup gives the same result afterwards, and the
    two listings hold the same entities, possibly in a different order. *)
Theorem X11_creates_with_distinct_ids_commute
    (s : State) (e1 e2 : ref) :
  id (heap s e1) <> id (heap s e2) ->
  let s12 := snd (create e2 (snd (create e1 s))) in
  let s21 := snd (create e1 (snd (create e2 s))) in
  (forall k, fst (get_by_id k s12) = fst (get_by_id k s21)) /\
  (exists l12 l21,
     fst (get_all s12) = Return l12 /\ fst (get_all s21) = Return l21 /\
     Permutation.Permutation l12 l21).
Proof.
  intros Hne. cbv zeta. rewrite !create_spec. simpl.
  split.
  - intros k. unfold get_by_id, storage_get. simpl.
    now rewrite dict_get_setitem_swap.
  - eexists. eexists. split; [reflexivity|]. split; [reflexivity|].
    unfold dict_values. apply Permutation.Permutation_map.
    now apply dict_setitem_swap.
Qed.

Lemma X11_creates_commute_witness :
  id (heap (init sample_heap) 0) <> id (heap (init sample_heap) 1) /\
  fst (get_all (snd (create 1 (snd (create 0 (init sample_heap)))))) =
    Return [0; 1] /\
  fst (get_all (snd (create 0 (snd (create 1 (init sample_heap)))))) =
    Return [1; 0] /\
  forall k,
    fst (get_by_id k (snd (create 1 (snd (create 0 (init sample_heap)))))) =
    fst (get_by_id k (snd (create 0 (snd (create 1 (init sample_heap)))))).
Proof.
  assert (Hne : id (heap (init sample_heap) 0) <> id (heap (init sample_heap) 1))
    by discriminate.
  split; [exact Hne|]. split; [reflexivity|]. split; [reflexivity|].
  exact (proj1 (X11_creates_with_distinct_ids_commute (init sample_heap) 0 1 Hne)).
Defined.

(** X12: the final state of a script is that of its [create], [update]
    and [delete] calls alone: [get] and [list_all] calls can be dropped
    anywhere. *)
Theorem X12_reads_can_be_dropped (cs : list Call) (s : State) :
  perform_all (filter is_write cs) s = perform_all cs s.
Proof.
  revert s. induction cs as [|c cs IH]; intros s; [reflexivity|].
  destruct c; simpl; apply IH.
Qed.

(* ================================================================== *)
(** ** Stored entities are shared with the caller                      *)
(* ================================================================== *)

(** X13: [create] stores the caller's object itself under the id it has
    at that moment.  A name the caller assigns afterwards is what
    [get_by_id] then shows, with no [update]; an id the caller assigns
    afterwards does not move the entry: the entity stays under its old
    key, nothing is found under the new one, and the key no longer
    matches the entity's id. *)
Theorem X13_store_shares_objects_and_keeps_old_key
    (s : State) (e : ref) (v k' : string) :
  k' <> id (heap s e) ->
  dict_contains (storage s) k' = false ->
  exists s1,
    create e s = (Return e, s1) /\
    fst (get_by_id (id (heap s e)) (assign_name e v s1)) = Return (Some e) /\
    name (heap (assign_name e v s1) e) = v /\
    id (heap (assign_id e k' s1) e) = k' /\
    fst (get_by_id k' (assign_id e k' s1)) = Return None /\
    fst (get_by_id (id (heap s e)) (assign_id e k' s1)) = Return (Some e) /\
    ~ keys_match_ids (assign_id e k' s1).
Proof.
  intros Hne Habs. eexists. split; [apply create_spec|].
  unfold get_by_id, storage_get, assign_name, assign_id, set_name, set_id.
  simpl. rewrite Nat.eqb_refl. simpl.
  rewrite dict_get_setitem_same.
  rewrite (dict_get_setitem_other _ _ _ _ Hne).
  rewrite dict_contains_get in Habs.
  destruct (dict_get (storage s) k') eqn:Hk'; [discriminate|].
  repeat split.
  intros Hinv.
  specialize (Hinv (id (heap s e)) e). simpl in Hinv.
  rewrite dict_get_setitem_same, Nat.eqb_refl in Hinv. simpl in Hinv.
  apply Hne. now apply Hinv.
Qed.

Lemma X13_store_shares_objects_witness :
  "u-5" <> id (heap (init sample_heap) 0) /\
  dict_contains (storage (init sample_heap)) "u-5" = false /\
  exists s1,
    create 0 (init sample_heap) = (Return 0, s1) /\
    name (heap (assign_name 0 "Johnny" s1) 0) = "Johnny" /\
    fst (get_by_id "u-5" (assign_id 0 "u-5" s1)) = Return None /\
    fst (get_by_id "u-1" (assign_id 0 "u-5" s1)) = Return (Some 0).
Proof.
  assert (Hne : "u-5" <> id (heap (init sample_heap) 0)) by discriminate.
  split; [exact Hne|]. split; [reflexivity|].
  destruct (X13_store_shares_objects_and_keeps_old_key
              (init sample_heap) 0 "Johnny" "u-5" Hne eq_refl)
    as (s1 & Hc & _ & Hn & _ & Hnew & Hold & _).
  exists s1. auto.
Defined.

(* ================================================================== *)
(** ** The shape of a generated identity                               *)
(* ================================================================== *)

Section UuidShape.

Import uuid.
Local Open Scope Z_scope.

(** The digit [p] places from the right. *)
Lemma hex_digits_nth (w : nat) (n : Z) (p : nat) (d : ascii) :
  (p < w)%nat ->
  nth (w - 1 - p) (hex_digits w n) d =
  hex_char ((n / 16 ^ Z.of_nat p) mod 16).
Proof.
  revert n p. induction w as [|w IH]; intros n p Hp; [lia|].
  cbn [hex_digits]. destruct p as [|p].
  - rewrite app_nth2 by (rewrite hex_digits_length; lia).
    rewrite hex_digits_length.
    replace (S w - 1 - 0 - w)%nat with 0%nat by lia.
    simpl. now rewrite Z.div_1_r.
  - rewrite app_nth1 by (rewrite hex_digits_length; lia).
    replace (S w - 1 - S p)%nat with (w - 1 - p)%nat by lia.
    rewrite IH by lia.
    rewrite Nat2Z.inj_succ, Z.pow_succ_r by lia.
    rewrite Z.div_div by (try apply Z.pow_pos_nonneg; lia).
    reflexivity.
Qed.

Lemma nibble_as_bits (u p : Z) :
  0 <= p -> (u / 16 ^ p) mod 16 = Z.land (Z.shiftr u (4 * p)) 15.
Proof.
  intros Hp. change 15 with (Z.ones 4). rewrite Z.land_ones by lia.
  rewrite Z.shiftr_div_pow2 by lia.
  replace (2 ^ (4 * p)) with (16 ^ p); [reflexivity|].
  change 16 with (2 ^ 4). now rewrite <- Z.pow_mul_r by lia.
Qed.

Lemma uuid4_version_nibble (rnd : list byte) :
  List.length rnd = 16%nat -> (uuid4_int rnd / 16 ^ 19) mod 16 = 4.
Proof.
  intros H. rewrite nibble_as_bits by lia.
  rewrite uuid4_int_split by exact H. unfold free_bits.
  rewrite Z.shiftr_lor, Z.shiftr_land, Z.land_lor_distr_l, <- Z.land_assoc.
  change (Z.land (Z.shiftr free_mask (4 * 19)) 15) with 0.
  change (Z.land (Z.shiftr fixed_bits (4 * 19)) 15) with 4.
  now rewrite Z.land_0_r.
Qed.

Lemma uuid4_variant_nibble (rnd : list byte) :
  List.length rnd = 16%nat ->
  8 <= (uuid4_int rnd / 16 ^ 15) mod 16 <= 11.
Proof.
  intros H. rewrite nibble_as_bits by lia.
  rewrite uuid4_int_split by exact H. unfold free_bits.
  rewrite Z.shiftr_lor, Z.shiftr_land, Z.land_lor_distr_l, <- Z.land_assoc.
  change (Z.land (Z.shiftr free_mask (4 * 15)) 15) with (Z.ones 2).
  change (Z.land (Z.shiftr fixed_bits (4 * 15)) 15) with 8.
  rewrite Z.land_ones by lia.
  set (x := Z.shiftr (from_bytes rnd) (4 * 15) mod 2 ^ 2).
  assert (Hx : 0 <= x < 4) by (apply Z.mod_pos_bound; lia).
  assert (x = 0 \/ x = 1 \/ x = 2 \/ x = 3) as [-> | [-> | [-> | ->]]]
    by lia; simpl; lia.
Qed.

Lemma layout_shape (hex : list ascii) (d : ascii) :
  List.length hex = 32%nat ->
  List.length (layout hex) = 36%nat /\
  nth 8 (layout hex) d = "-"%char /\ nth 13 (layout hex) d = "-"%char /\
  nth 18 (layout hex) d = "-"%char /\ nth 23 (layout hex) d = "-"%char /\
  nth 14 (layout hex) d = nth 12 hex d /\
  nth 19 (layout hex) d = nth 16 hex d.
Proof.
  intros H.
  do 32 (destruct hex as [|? hex]; [discriminate H|]).
  destruct hex; [|discriminate H]. repeat split.
Qed.

Lemma string_length_of_list (l : list ascii) :
  String.length (string_of_list_ascii l) = List.length l.
Proof. induction l as [|c l IH]; simpl; congruence. Qed.

End UuidShape.

(** X14: an entity built without an [id] argument has a 36-character id,
    never the empty string, with hyphens at positions 8, 13, 18 and 23,
    the version digit [4] at position 14 and one of [8], [9], [a], [b] at
    position 19, whatever the 16 bytes drawn. *)
Theorem X14_generated_id_shape (rnd : list byte) (u : User) (d : ascii) :
  List.length rnd = 16 -> default_constructed rnd u ->
  String.length (id u) = 36 /\
  id u <> "" /\
  nth 8 (list_ascii_of_string (id u)) d = "-"%char /\
  nth 13 (list_ascii_of_string (id u)) d = "-"%char /\
  nth 18 (list_ascii_of_string (id u)) d = "-"%char /\
  nth 23 (list_ascii_of_string (id u)) d = "-"%char /\
  nth 14 (list_ascii_of_string (id u)) d = "4"%char /\
  In (nth 19 (list_ascii_of_string (id u)) d)
     ["8"%char; "9"%char; "a"%char; "b"%char].
Proof.
  intros Hlen Hu. rewrite (default_constructed_id rnd u Hu).
  unfold uuid.str_uuid4, uuid.str_of_int.
  rewrite list_ascii_of_string_of_list_ascii, string_length_of_list.
  destruct (layout_shape (uuid.hex_digits 32 (uuid.uuid4_int rnd)) d
              (hex_digits_length 32 _))
    as (H36 & H8 & H13 & H18 & H23 & H14 & H19).
  split; [exact H36|]. split.
  { intros E. apply (f_equal String.length) in E.
    rewrite string_length_of_list, H36 in E. discriminate. }
  split; [exact H8|]. split; [exact H13|]. split; [exact H18|].
  split; [exact H23|]. split.
  - rewrite H14.
    pose proof (hex_digits_nth 32 (uuid.uuid4_int rnd) 19 d) as Hn.
    change (32 - 1 - 19) with 12 in Hn. rewrite Hn by lia.
    change (Z.of_nat 19) with 19%Z.
    now rewrite (uuid4_version_nibble rnd Hlen).
  - rewrite H19.
    pose proof (hex_digits_nth 32 (uuid.uuid4_int rnd) 15 d) as Hn.
    change (32 - 1 - 15) with 16 in Hn. rewrite Hn by lia.
    change (Z.of_nat 15) with 15%Z.
    pose proof (uuid4_variant_nibble rnd Hlen) as Hv.
    set (x := ((uuid.uuid4_int rnd / 16 ^ 15) mod 16)%Z) in *.
    assert (x = 8 \/ x = 9 \/ x = 10 \/ x = 11)%Z
      as [-> | [-> | [-> | ->]]] by lia; simpl; tauto.
Qed.

Lemma X14_generated_id_shape_witness :
  List.length draw_ones = 16 /\
  default_constructed draw_ones (generated_heap 2) /\
  String.length (id (generated_heap 2)) = 36 /\
  nth 14 (list_ascii_of_string (id (generated_heap 2))) " "%char = "4"%char.
Proof.
  assert (D : default_constructed draw_ones (generated_heap 2)).
  { unfold default_constructed, generated_heap, User_named. eauto 10. }
  split; [reflexivity|]. split; [exact D|].
  destruct (X14_generated_id_shape draw_ones (generated_heap 2) " "%char
              eq_refl D) as (H36 & _ & _ & _ & _ & _ & H14 & _).
  split; [exact H36 | exact H14].
Defined.
